(** * Stock-Analyser: the sanitizer, the decomposition gate and the forecast
      engine of [app.py]

    [app.py] is a Streamlit script.  Everything below the data download is a
    straight-line pipeline over the fetched table: the [Close] column is
    cleaned ([dropna]), shifted to be positive, handed to
    [seasonal_decompose] when it is long enough, handed to
    [fit_sarima_model] when the table is long enough, and the forecast is
    summarised by a percentage change and a confidence bucket.

    Numbers.  The script computes with IEEE binary64 floats.  The pipeline
    is written once, over an interface [Num] of float operations, and read
    in two ways:
    - [exact]: a rational or NaN, with exact arithmetic.  General
      statements about order and arithmetic are proved in this reading.
    - [binary64]: the kernel's primitive binary64 floats, which round as
      Python's do.  Concrete runs are evaluated in this reading.
    Statements that only depend on the shape of the computation are proved
    for every instance of [Num].

    Libraries.  [SARIMAX] (fit and forecast) and [seasonal_decompose] are
    statsmodels code that is not part of the repository; they enter as
    section variables, and [None] stands for "the call raised". *)

From Stdlib Require Import ZArith QArith Qfield Lqa List Bool Lia Sorted.
From Stdlib Require PrimFloat Uint63 SpecFloat FloatOps FloatAxioms.
Import ListNotations.
Close Scope Q_scope.

Set Implicit Arguments.

(** ** The arithmetic of a float *)

Class Num (F : Type) : Type := {
  fromZ : Z -> F;          (* an integer literal, or a count, as a float *)
  fromQ : Q -> F;          (* a decimal literal: the float nearest to it *)
  fadd  : F -> F -> F;
  fsub  : F -> F -> F;
  fmul  : F -> F -> F;
  fdiv  : F -> F -> F;     (* numpy's division: no exception on zero *)
  fltb  : F -> F -> bool;  (* comparisons are false on NaN *)
  fleb  : F -> F -> bool;
  feqb  : F -> F -> bool;
  isnan : F -> bool
}.

Declare Scope num_scope.
Delimit Scope num_scope with num.
Infix "+" := fadd : num_scope.
Infix "-" := fsub : num_scope.
Infix "*" := fmul : num_scope.
Infix "/" := fdiv : num_scope.
Infix "<?" := fltb : num_scope.
Infix "<=?" := fleb : num_scope.
Infix "=?" := feqb : num_scope.

(** *** Exact reading: a rational or NaN *)

Inductive exact : Type :=
| Fin (q : Q)
| NaN.

Definition exact_lift (f : Q -> Q -> Q) (a b : exact) : exact :=
  match a, b with
  | Fin x, Fin y => Fin (f x y)
  | _, _ => NaN
  end.

(** A quotient by zero is an infinity or NaN in binary64; the exact reading
    has no infinities and reports NaN. *)
Definition exact_div (a b : exact) : exact :=
  match a, b with
  | Fin x, Fin y => if Qeq_bool y 0%Q then NaN else Fin (x / y)%Q
  | _, _ => NaN
  end.

Definition exact_cmp (c : Q -> Q -> bool) (a b : exact) : bool :=
  match a, b with
  | Fin x, Fin y => c x y
  | _, _ => false
  end.

Definition Qlt_bool (x y : Q) : bool := negb (Qle_bool y x).

Definition exact_isnan (a : exact) : bool :=
  match a with Fin _ => false | NaN => true end.

#[export] Instance exact_Num : Num exact := {|
  fromZ z := Fin (inject_Z z);
  fromQ q := Fin q;
  fadd := exact_lift Qplus;
  fsub := exact_lift Qminus;
  fmul := exact_lift Qmult;
  fdiv := exact_div;
  fltb := exact_cmp Qlt_bool;
  fleb := exact_cmp Qle_bool;
  feqb := exact_cmp Qeq_bool;
  isnan := exact_isnan
|}.

(** Equality of exact values: the same rational, or both NaN. *)
Definition exact_eq (a b : exact) : Prop :=
  match a, b with
  | Fin x, Fin y => (x == y)%Q
  | NaN, NaN => True
  | _, _ => False
  end.

(** *** Binary64 reading: the kernel's primitive floats *)

Definition binary64 : Type := PrimFloat.float.

(** An integer of magnitude below [2^63], rounded to the nearest float. *)
Definition binary64_fromZ (z : Z) : binary64 :=
  if (z <? 0)%Z
  then PrimFloat.opp (PrimFloat.of_uint63 (Uint63.of_Z (- z)))
  else PrimFloat.of_uint63 (Uint63.of_Z z).

(** A decimal literal [n/d] with [n] and [d] below [2^53] is the correctly
    rounded quotient of two floats that hold [n] and [d] exactly. *)
Definition binary64_fromQ (q : Q) : binary64 :=
  PrimFloat.div (binary64_fromZ (Qnum q)) (binary64_fromZ (Zpos (Qden q))).

#[export] Instance binary64_Num : Num binary64 := {|
  fromZ := binary64_fromZ;
  fromQ := binary64_fromQ;
  fadd := PrimFloat.add;
  fsub := PrimFloat.sub;
  fmul := PrimFloat.mul;
  fdiv := PrimFloat.div;
  fltb := PrimFloat.ltb;
  fleb := PrimFloat.leb;
  feqb := PrimFloat.eqb;
  isnan := PrimFloat.is_nan
|}.

(** *** Order laws

    [<] and [<=] are complementary on numbers that compare at all (NaN
    compares with nothing, itself included), and the threshold 10 of the
    confidence bucket is such a number. *)
Class NumOrder (F : Type) {num : Num F} : Prop := {
  leb_not_ltb : forall a b : F, (a <=? b)%num = true -> (b <? a)%num = false;
  not_ltb_leb : forall a b : F,
    (a =? a)%num = true -> (b =? b)%num = true ->
    (a <? b)%num = false -> (b <=? a)%num = true;
  ltb_comparable : forall a b : F, (a <? b)%num = true -> (a =? a)%num = true;
  ten_comparable : (fromZ 10 =? fromZ 10)%num = true
}.

Arguments NumOrder F {num}.

(** ** Data *)

(** A date is its proleptic Gregorian ordinal ([date.toordinal()]); adding
    [timedelta(days=1)] adds one. *)
Definition date : Type := Z.


(** A dated series: the [Close] column with its [Date] index.  In the
    fetched table a missing close is NaN. *)
Definition series (F : Type) : Type := list (date * F).

Definition values {F} (s : series F) : list F := map snd s.

(** What the script shows the user with [st.error], [st.warning] and the
    success box. *)
Inductive notice : Type :=
| NotEnoughForDecomposition (need got : nat)
| DecompositionFailed
| SarimaFallback
| NotEnoughForSarima
| AnalysisCompleted.

Inductive confidence : Type := High | Medium | Low.

Inductive exn : Type := ZeroDivisionError.

Inductive sanitize_error : Type := EmptySeriesError.

Section Pipeline.

Context {F : Type} {num : Num F}.
Local Open Scope num_scope.

(** The statsmodels calls.  [seasonal_decompose s period] is the
    multiplicative decomposition; [None] when it, or the plotting that
    shares its [try] block, raises.  [SARIMAX s] is the whole [try] block
    of [fit_sarima_model]: model construction, [fit], [get_forecast] and
    [conf_int]; [None] when any of them raises, otherwise the fitted model
    as the map from a step [i] to its predicted mean and its interval
    (lower, upper), so that [get_forecast(steps=n)] is its first [n] steps. *)
Variable D : Type.
Variable seasonal_decompose : series F -> nat -> option D.
Variable SARIMAX : series F -> option (nat -> F * (F * F)).

Definition nan : F := fromZ 0 / fromZ 0.

(** *** Series Sanitizer (lines 306-319) *)

(** [close_series.dropna().astype(float)] *)
Definition dropna (col : series F) : series F :=
  filter (fun p => negb (isnan (snd p))) col.

(** [close_series.min()] *)
Definition series_min (vs : list F) : F :=
  match vs with
  | [] => nan
  | x :: tl => fold_left (fun m y => if y <? m then y else m) tl x
  end.

(** [np.any(close_series.values <= 0)] *)
Definition any_nonpositive (vs : list F) : bool :=
  existsb (fun x => x <=? fromZ 0) vs.

(** Lines 318-319:
    [if len(close_series) > 0 and np.any(close_series.values <= 0):
         close_series = close_series - close_series.min() + 1] *)
Definition positivity_shift (s : series F) : series F :=
  if (0 <? length s)%nat && any_nonpositive (values s)
  then let m := series_min (values s) in
       map (fun p => (fst p, snd p - m + fromZ 1)) s
  else s.

Definition sanitize (col : series F) : series F :=
  positivity_shift (dropna col).

(** The sanitizer as the specification words it: it fails with
    [EmptySeriesError] when cleaning leaves no entry. *)
Definition spec_sanitize (col : series F) : sanitize_error + series F :=
  match dropna col with
  | [] => inl EmptySeriesError
  | _ :: _ => inr (sanitize col)
  end.

(** Every value strictly above zero. *)
Definition all_positive (vs : list F) : Prop :=
  Forall (fun x => (fromZ 0 <? x) = true) vs.

(** The same pairs of positions are strictly ordered before and after. *)
Definition order_preserved (before after : list F) : Prop :=
  forall i j, (i < length before)%nat -> (j < length before)%nat ->
    ((nth i before nan <? nth j before nan) = true <->
     (nth i after nan <? nth j after nan) = true).

(** The shift as the specification words it: [(min(values) * -1) + 1]. *)
Definition spec_shift (vs : list F) : F :=
  series_min vs * fromZ (-1) + fromZ 1.

(** *** Decomposition gate (lines 321-373) *)

Inductive decomposition_outcome : Type :=
| DecompositionSkipped
| DecompositionRaised
| Decomposed (result : D).

Definition decomposition_section (close_series : series F)
  : list notice * decomposition_outcome :=
  if (length close_series <? 60)%nat
  then ([NotEnoughForDecomposition 60 (length close_series)],
        DecompositionSkipped)
  else match seasonal_decompose close_series 30 with
       | Some result => ([], Decomposed result)
       | None => ([DecompositionFailed], DecompositionRaised)
       end.

(** *** Forecast engine: [fit_sarima_model] (lines 137-174) *)

(** [l[-n:]] *)
Definition lastn {A} (n : nat) (l : list A) : list A :=
  skipn (length l - n) l.

(** [Series.mean()]: the sum over the count; NaN on the empty series.  The
    sum is taken from left to right; numpy may add in another order, which
    changes nothing when the partial sums are exact, as they are in the
    binary64 runs below. *)
Definition mean (vs : list F) : F :=
  fold_left fadd vs (fromZ 0) / fromZ (Z.of_nat (length vs)).

Record forecast : Type := {
  forecast_values : list F;
  confidence_intervals : list (F * F);      (* columns lower, upper *)
  fitted_model : option (nat -> F * (F * F))
}.

Definition fit_sarima_model (s : series F) (forecast_days : nat)
  : list notice * forecast :=
  match SARIMAX s with
  | Some fitted =>
      let steps := map fitted (seq 0 forecast_days) in
      ([], {| forecast_values := map fst steps;
              confidence_intervals := map snd steps;
              fitted_model := Some fitted |})
  | None =>
      let last_values := mean (lastn 10 (values s)) in
      let forecast_values := repeat last_values forecast_days in
      ([SarimaFallback],
       {| forecast_values := forecast_values;
          confidence_intervals :=
            map (fun x => (x * fromQ 0.95%Q, x * fromQ 1.05%Q)) forecast_values;
          fitted_model := None |})
  end.

(** A forecast step whose interval contains its point forecast. *)
Definition interval_ordered (step : F * (F * F)) : Prop :=
  (fst (snd step) <=? fst step) = true
  /\ (fst step <=? snd (snd step)) = true.

(** *** Forecast section of the script (lines 387-457) *)

(** [pd.date_range(start, periods=n)], daily frequency. *)
Definition date_range (start : date) (periods : nat) : list date :=
  map (fun i => (start + Z.of_nat i)%Z) (seq 0 periods).

Record frame : Type := {
  Date : list date;
  Predicted_Close : list F;
  Lower_CI : list F;
  Upper_CI : list F
}.

Record metrics : Type := {
  last_pred_price : F;
  pred_change_val : F;
  confidence_width : F;
  confidence_level : confidence
}.

(** [/] between two Python floats raises on a zero divisor. *)
Definition py_div (a b : F) : exn + F :=
  if b =? fromZ 0 then inl ZeroDivisionError else inr (a / b).

(** Lines 452-457. *)
Definition confidence_bucket (width : F) : confidence :=
  if width <? fromZ 10 then High
  else if width <? fromZ 20 then Medium
  else Low.


(** [.iloc[-1]] of a forecast column; the columns have 30 entries, so the
    default is never used. *)
Definition iloc_last (col : list F) : F := last col nan.

(** Lines 447-457. *)
Definition prediction_summary (current_price_val : F) (future_df : frame)
  : exn + metrics :=
  let last_pred_price := iloc_last (Predicted_Close future_df) in
  match py_div (last_pred_price - current_price_val) current_price_val with
  | inl e => inl e
  | inr ratio =>
      let width :=
        (iloc_last (Upper_CI future_df) - iloc_last (Lower_CI future_df))
        / last_pred_price * fromZ 100 in
      inr {| last_pred_price := last_pred_price;
             pred_change_val := ratio * fromZ 100;
             confidence_width := width;
             confidence_level := confidence_bucket width |}
  end.

(** Line 260: [float(data_reset['Close'].iloc[-1]) if len(data_reset) > 0
    else 0]: the last close of the fetched table, NaN when it is missing. *)
Definition current_price_val (data_reset : series F) : F :=
  last (values data_reset) (fromZ 0).

(** Lines 396-397. *)
Definition future_dates (data_reset : series F) : list date :=
  let last_date := last (map fst data_reset) 0%Z in
  date_range (last_date + 1)%Z 30.

(** Lines 388-457.  The forecast frame is plotted before the summary is
    computed, so it is part of the result even when the summary raises. *)
Definition prediction_section (data_reset close_series : series F)
  : list notice * option frame * option (exn + metrics) :=
  if (length data_reset <? 30)%nat
  then ([NotEnoughForSarima], None, None)
  else
    let '(warned, fc) := fit_sarima_model close_series 30 in
    let future_df :=
      {| Date := future_dates data_reset;
         Predicted_Close := forecast_values fc;
         Lower_CI := map fst (confidence_intervals fc);
         Upper_CI := map snd (confidence_intervals fc) |} in
    (warned, Some future_df,
     Some (prediction_summary (current_price_val data_reset) future_df)).

(** *** The script from the download on (lines 249-484) *)

Record report : Type := {
  notices : list notice;
  close_series : series F;
  decomposition : decomposition_outcome;
  future_df : option frame;
  summary : option (exn + metrics)
}.

Definition finished (s : option (exn + metrics)) : list notice :=
  match s with
  | Some (inl _) => []
  | _ => [AnalysisCompleted]
  end.

Definition analyse (data : series F) : report :=
  let close_series := sanitize data in
  let '(shown1, decomposed) := decomposition_section close_series in
  let '(shown2, future_df, summary) := prediction_section data close_series in
  {| notices := shown1 ++ shown2 ++ finished summary;
     close_series := close_series;
     decomposition := decomposed;
     future_df := future_df;
     summary := summary |}.

(** [if data.empty: st.error("No data found") else: ...] *)
Definition app (data : series F) : option report :=
  match data with
  | [] => None
  | _ => Some (analyse data)
  end.

End Pipeline.

(** *** The "Total Return" card (lines 268-286) *)

Inductive colour : Type := Green | Red.

Section Cards.

Context {F : Type} {num : Num F}.
Local Open Scope num_scope.

(** Lines 270-277: the price change and the percent change from the first
    to the last close of the fetched table.  The quotient is between Python
    floats and sits behind the guard [first_price != 0]. *)
Definition total_return (data_reset : series F) : exn + F * F :=
  match data_reset with
  | [] => inr (fromZ 0, fromZ 0)
  | (_, first_price) :: _ =>
      let last_price := last (values data_reset) nan in
      let price_change_val := last_price - first_price in
      if negb (first_price =? fromZ 0)
      then match py_div price_change_val first_price with
           | inl e => inl e
           | inr ratio => inr (price_change_val, ratio * fromZ 100)
           end
      else inr (price_change_val, fromZ 0)
  end.

(** Line 282: ['#00ff00' if pct_change_val >= 0 else '#ff4444']. *)
Definition return_colour (pct_change_val : F) : colour :=
  if fromZ 0 <=? pct_change_val then Green else Red.

End Cards.

(** The buckets from the most to the least confident. *)
Definition confidence_rank (c : confidence) : nat :=
  match c with High => 0 | Medium => 1 | Low => 2 end.

(** ** Concrete inputs *)

(** A library call that raises on every input. *)
Definition always_raises {A B : Type} : A -> option B := fun _ => None.

Definition decompose_raises {F : Type} : series F -> nat -> option unit :=
  fun _ _ => None.

(** [n] rows on consecutive days from [start], all with close [v]. *)
Definition constant_rows {F : Type} (start : date) (n : nat) (v : F)
  : series F :=
  map (fun i => ((start + Z.of_nat i)%Z, v)) (seq 0 n).

(** 2022-01-03, a Monday. *)
Definition day0 : date := 738158%Z.



(** 40 days at 19. *)
Definition flat19 : series binary64 := constant_rows day0 40 (fromZ 19).

Definition flat19_exact : series exact := constant_rows day0 40 (fromZ 19).

(** 45 days at 100. *)
Definition flat45 : series binary64 := constant_rows day0 45 (fromZ 100).

(** 30 rows: 25 days at 100, then 5 days whose close is missing. *)
Definition gappy_table : series binary64 :=
  constant_rows day0 25 (fromZ 100) ++ constant_rows (day0 + 25)%Z 5 nan.

(** 30 rows, every close missing. *)
Definition all_missing_table : series binary64 := constant_rows day0 30 nan.

(** Three closes: 0, 2^-60 and 2^-59. *)
Definition tiny_prices : series binary64 :=
  [ (day0, fromZ 0);
    ((day0 + 1)%Z, fromQ (1 # 1152921504606846976));
    ((day0 + 2)%Z, fromQ (1 # 576460752303423488)) ].

(** The same closes with a close of -3 in front, in exact arithmetic. *)
Definition dipped_prices : series exact :=
  [ (day0, fromZ (-3));
    ((day0 + 1)%Z, NaN);
    ((day0 + 2)%Z, fromQ (1 # 1152921504606846976));
    ((day0 + 3)%Z, fromQ (1 # 576460752303423488)) ].


(** 30 days at 0. *)
Definition zero_table : series binary64 := constant_rows day0 30 (fromZ 0).

(** 30 days at 100 in exact arithmetic, and 30 days with no close. *)
Definition flat30_exact : series exact := constant_rows day0 30 (fromZ 100).

Definition all_missing_exact : series exact := constant_rows day0 30 NaN.

(** 60 days at 100, and a decomposition that succeeds on every series. *)
Definition flat60_exact : series exact := constant_rows day0 60 (fromZ 100).

Definition decompose_ok : series exact -> nat -> option unit :=
  fun _ _ => Some tt.

(** 12 days at -100. *)
Definition below_zero : series exact := constant_rows day0 12 (fromZ (-100)).

(** A week of rows: 100, missing, 102, 101, 104. *)
Definition week_table : series exact :=
  [ (day0, fromZ 100);
    ((day0 + 1)%Z, NaN);
    ((day0 + 2)%Z, fromZ 102);
    ((day0 + 3)%Z, fromZ 101);
    ((day0 + 4)%Z, fromZ 104) ].

(** A fitted model that forecasts 100 with the interval [90, 110]. *)
Definition flat_model : nat -> exact * (exact * exact) :=
  fun _ => (fromZ 100, (fromZ 90, fromZ 110)).

Definition fits_flat : series exact -> option (nat -> exact * (exact * exact)) :=
  fun _ => Some flat_model.

(** ** Properties *)

Section Lists.

Context {A : Type}.

Lemma lastn_all (n : nat) (l : list A) :
  length l <= n -> lastn n l = l.
Proof.
  intros Hle. unfold lastn.
  replace (length l - n) with 0 by lia. reflexivity.
Qed.


Lemma lastn_length (n : nat) (l : list A) :
  length (lastn n l) = Nat.min n (length l).
Proof. unfold lastn. rewrite length_skipn. lia. Qed.

Lemma lastn_incl (n : nat) (l : list A) (P : A -> Prop) :
  Forall P l -> Forall P (lastn n l).
Proof.
  intros H. unfold lastn. rewrite <- (firstn_skipn (length l - n) l) in H.
  apply Forall_app in H. tauto.
Qed.

Lemma lastn_nonempty (n : nat) (l : list A) :
  0 < n -> l <> [] -> lastn n l <> [].
Proof.
  intros Hn Hl Heq. apply (f_equal (@length A)) in Heq.
  rewrite lastn_length in Heq. destruct l; [congruence|simpl in Heq; lia].
Qed.

End Lists.

(** *** Calendar days *)

Lemma map_seq_nth {B : Type} (f : nat -> B) (d : B) (n a i : nat) :
  i < n -> nth i (map f (seq a n)) d = f (a + i).
Proof.
  revert a i. induction n as [|n IH]; intros a i Hi; [lia|].
  destruct i as [|i]; simpl.
  - rewrite Nat.add_0_r. reflexivity.
  - rewrite IH by lia. f_equal. lia.
Qed.




(** *** The shape of the pipeline, for every reading of the arithmetic *)

Section Projections.

Context {F : Type} {num : Num F}.
Variable D : Type.
Variable seasonal_decompose : series F -> nat -> option D.
Variable SARIMAX : series F -> option (nat -> F * (F * F)).
Local Open Scope num_scope.

Local Abbreviation run := (analyse seasonal_decompose SARIMAX).
Local Abbreviation forecast_part := (prediction_section SARIMAX).
Local Abbreviation decomposition_part :=
  (decomposition_section seasonal_decompose).
Local Abbreviation fit := (fit_sarima_model SARIMAX).

Lemma analyse_close_series (data : series F) :
  close_series (run data) = sanitize data.
Proof.
  unfold analyse.
  destruct (decomposition_part _) as [shown1 d].
  destruct (forecast_part _ _) as [[shown2 fr] sm]. reflexivity.
Qed.

Lemma analyse_decomposition (data : series F) :
  decomposition (run data) = snd (decomposition_part (sanitize data)).
Proof.
  unfold analyse.
  destruct (decomposition_part _) as [shown1 d].
  destruct (forecast_part _ _) as [[shown2 fr] sm]. reflexivity.
Qed.

Lemma analyse_future_df (data : series F) :
  future_df (run data) =
  snd (fst (forecast_part data (sanitize data))).
Proof.
  unfold analyse.
  destruct (decomposition_part _) as [shown1 d].
  destruct (forecast_part _ _) as [[shown2 fr] sm]. reflexivity.
Qed.

Lemma analyse_summary (data : series F) :
  summary (run data) = snd (forecast_part data (sanitize data)).
Proof.
  unfold analyse.
  destruct (decomposition_part _) as [shown1 d].
  destruct (forecast_part _ _) as [[shown2 fr] sm]. reflexivity.
Qed.

Lemma analyse_notices (data : series F) :
  notices (run data) =
  fst (decomposition_part (sanitize data))
  ++ fst (fst (forecast_part data (sanitize data)))
  ++ finished (summary (run data)).
Proof.
  unfold analyse.
  destruct (decomposition_part _) as [shown1 d].
  destruct (forecast_part _ _) as [[shown2 fr] sm]. reflexivity.
Qed.

End Projections.

Section Shape.

Context {F : Type} {num : Num F}.
Variable D : Type.
Variable seasonal_decompose : series F -> nat -> option D.
Variable SARIMAX : series F -> option (nat -> F * (F * F)).
Local Open Scope num_scope.

Local Abbreviation run := (analyse seasonal_decompose SARIMAX).
Local Abbreviation forecast_part := (prediction_section SARIMAX).
Local Abbreviation decomposition_part :=
  (decomposition_section seasonal_decompose).
Local Abbreviation fit := (fit_sarima_model SARIMAX).

(** Cleaning and shifting never add a row. *)
Lemma positivity_shift_length (s : series F) :
  length (positivity_shift s) = length s.
Proof.
  unfold positivity_shift.
  destruct (_ && _); [apply length_map | reflexivity].
Qed.

Lemma positivity_shift_dates (s : series F) :
  map fst (positivity_shift s) = map fst s.
Proof.
  unfold positivity_shift.
  destruct (_ && _); [|reflexivity].
  rewrite map_map. reflexivity.
Qed.

Lemma dropna_length (col : series F) : length (dropna col) <= length col.
Proof. apply filter_length_le. Qed.

Lemma sanitize_length (col : series F) : length (sanitize col) <= length col.
Proof.
  unfold sanitize. rewrite positivity_shift_length. apply dropna_length.
Qed.

(** Both paths of [fit_sarima_model] return [forecast_days] steps. *)
Lemma fit_sarima_model_lengths (s : series F) (forecast_days : nat) :
  let fc := snd (fit s forecast_days) in
  length (forecast_values fc) = forecast_days /\
  length (confidence_intervals fc) = forecast_days.
Proof.
  unfold fit_sarima_model. destruct (SARIMAX s); simpl;
    rewrite ?length_map, ?length_seq, ?repeat_length; auto.
Qed.

(** What the gate of line 388 tests: the rows of the fetched table. *)
Lemma prediction_section_runs (data close_series : series F) :
  30 <= length data ->
  forecast_part data close_series =
  let fc := snd (fit close_series 30) in
  let future_df :=
    {| Date := future_dates data;
       Predicted_Close := forecast_values fc;
       Lower_CI := map fst (confidence_intervals fc);
       Upper_CI := map snd (confidence_intervals fc) |} in
  (fst (fit close_series 30), Some future_df,
   Some (prediction_summary (current_price_val data) future_df)).
Proof.
  intros Hlen. unfold prediction_section.
  destruct (Nat.ltb_spec (length data) 30) as [Hlt|_]; [lia|].
  destruct (fit_sarima_model _ _ _) as [warned fc]. reflexivity.
Qed.

Lemma prediction_section_skipped (data close_series : series F) :
  length data < 30 ->
  forecast_part data close_series = ([NotEnoughForSarima], None, None).
Proof.
  intros Hlen. unfold prediction_section.
  destruct (Nat.ltb_spec (length data) 30) as [_|Hge]; [reflexivity|lia].
Qed.

Lemma forecast_gate (data : series F) :
  (exists fr, future_df (run data) = Some fr) <-> 30 <= length data.
Proof.
  rewrite analyse_future_df. split.
  - intros [fr Hfr]. destruct (Nat.lt_ge_cases (length data) 30) as [Hlt|]; auto.
    rewrite prediction_section_skipped in Hfr by assumption. discriminate.
  - intros Hlen. rewrite prediction_section_runs by assumption.
    simpl. eauto.
Qed.

(** On a table with no missing close the gate is the one of the
    specification: 30 points of the sanitized series. *)
Lemma forecast_gate_clean (data : series F) :
  dropna data = data ->
  (exists fr, future_df (run data) = Some fr)
  <-> 30 <= length (close_series (run data)).
Proof.
  intros Hclean. rewrite analyse_close_series. unfold sanitize.
  rewrite Hclean, positivity_shift_length. apply forecast_gate.
Qed.

Lemma app_analyses (data : series F) :
  data <> [] -> app seasonal_decompose SARIMAX data = Some (run data).
Proof. intros Hne. destruct data; [congruence|reflexivity]. Qed.

(** The 30-row gate passed: no insufficient-data error for the forecast. *)
Lemma forecast_notice (data : series F) :
  30 <= length data -> ~ In NotEnoughForSarima (notices (run data)).
Proof.
  intros Hlen Hin. rewrite analyse_notices in Hin.
  rewrite analyse_summary in Hin.
  rewrite prediction_section_runs in Hin by assumption.
  cbn [fst snd] in Hin.
  apply in_app_or in Hin. destruct Hin as [Hin|Hin].
  - unfold decomposition_section in Hin.
    destruct (_ <? 60)%nat; [destruct Hin as [?|[]]; discriminate|].
    destruct (seasonal_decompose _ _); simpl in Hin;
      [contradiction | destruct Hin as [?|[]]; discriminate].
  - apply in_app_or in Hin. destruct Hin as [Hin|Hin].
    + unfold fit_sarima_model in Hin.
      destruct (SARIMAX _); simpl in Hin;
        [contradiction | destruct Hin as [?|[]]; discriminate].
    + destruct (prediction_summary _ _); simpl in Hin;
        [contradiction | destruct Hin as [?|[]]; discriminate].
Qed.

(** The frame and the summary of a fallback forecast. *)
Lemma fallback_frame (data : series F) :
  30 <= length data ->
  SARIMAX (sanitize data) = None ->
  let v := mean (lastn 10 (values (sanitize data))) in
  future_df (run data) =
    Some {| Date := future_dates data;
            Predicted_Close := repeat v 30;
            Lower_CI := repeat (v * fromQ 0.95%Q) 30;
            Upper_CI := repeat (v * fromQ 1.05%Q) 30 |}
  /\ summary (run data) =
     Some match py_div (v - current_price_val data) (current_price_val data)
          with
          | inl e => inl e
          | inr ratio =>
              let width :=
                (v * fromQ 1.05%Q - v * fromQ 0.95%Q) / v * fromZ 100 in
              inr {| last_pred_price := v;
                     pred_change_val := ratio * fromZ 100;
                     confidence_width := width;
                     confidence_level := confidence_bucket width |}
          end.
Proof.
  intros Hlen Hraise v.
  rewrite analyse_future_df, analyse_summary.
  rewrite prediction_section_runs by assumption.
  cbn [fst snd]. unfold fit_sarima_model. rewrite Hraise. cbn [snd].
  cbn [forecast_values confidence_intervals].
  fold v. rewrite !map_map. cbn [fst snd]. rewrite !map_repeat.
  split; reflexivity.
Qed.


(** C5.  The decomposition runs exactly when the sanitized series has at
    least 2 x 30 = 60 points.  Below that the section is skipped and the
    notice carries the required and the actual length; from 60 on,
    [seasonal_decompose] is called with period 30.  The forecast does not
    depend on the decomposition, and a sanitized series of 45 points is
    not decomposed but is forecast. *)
Theorem C5_decomposition_gate :
  forall (data : series F),
    let r := run data in
    let n := length (close_series r) in
    (decomposition r <> DecompositionSkipped D <-> 2 * 30 <= n)
    /\ (n < 2 * 30 ->
        decomposition r = DecompositionSkipped D
        /\ In (NotEnoughForDecomposition (2 * 30) n) (notices r))
    /\ (2 * 30 <= n ->
        decomposition r =
          match seasonal_decompose (close_series r) 30 with
          | Some result => Decomposed result
          | None => DecompositionRaised D
          end)
    /\ (forall (D' : Type) (other : series F -> nat -> option D'),
          future_df (analyse other SARIMAX data) = future_df r
          /\ summary (analyse other SARIMAX data) = summary r)
    /\ (n = 45 ->
        decomposition r = DecompositionSkipped D
        /\ (exists fr, future_df r = Some fr)
        /\ ~ In NotEnoughForSarima (notices r)).
Proof.
  intros data r n.
  assert (Hn : n = length (sanitize data))
    by (subst n r; rewrite analyse_close_series; reflexivity).
  assert (Hdec : decomposition r = snd (decomposition_part (sanitize data)))
    by apply analyse_decomposition.
  assert (Hskip : n < 60 ->
            decomposition_part (sanitize data) =
            ([NotEnoughForDecomposition 60 n], DecompositionSkipped D)).
  { intros Hlt. unfold decomposition_section. rewrite <- Hn.
    destruct (Nat.ltb_spec n 60); [reflexivity|lia]. }
  assert (Hrun : 60 <= n ->
            decomposition_part (sanitize data) =
            match seasonal_decompose (sanitize data) 30 with
            | Some result => ([], Decomposed result)
            | None => ([DecompositionFailed], DecompositionRaised D)
            end).
  { intros Hge. unfold decomposition_section. rewrite <- Hn.
    destruct (Nat.ltb_spec n 60); [lia|reflexivity]. }
  assert (Hnotice : n < 60 ->
            In (NotEnoughForDecomposition 60 n) (notices r)).
  { intros Hlt. subst r. rewrite analyse_notices, (Hskip Hlt).
    simpl. auto. }
  change (2 * 30) with 60.
  repeat split.
  - intros Hne. destruct (Nat.lt_ge_cases n 60) as [Hlt|]; [|assumption].
    rewrite Hdec, (Hskip Hlt) in Hne. simpl in Hne. congruence.
  - intros Hge. rewrite Hdec, (Hrun Hge).
    destruct (seasonal_decompose _ _); simpl; discriminate.
  - rewrite Hdec, (Hskip H). reflexivity.
  - auto.
  - intros Hge. rewrite Hdec, (Hrun Hge).
    subst r. rewrite analyse_close_series.
    destruct (seasonal_decompose _ _); reflexivity.
  - subst r. rewrite !analyse_future_df. reflexivity.
  - subst r. rewrite !analyse_summary. reflexivity.
  - rewrite Hdec, Hskip by lia. reflexivity.
  - apply forecast_gate. pose proof (sanitize_length data). lia.
  - apply forecast_notice. pose proof (sanitize_length data). lia.
Qed.




End Shape.

(** *** Order laws of the two readings *)

#[export] Instance exact_NumOrder : NumOrder exact.
Proof.
  split.
  - intros [a|] [b|]; simpl; try discriminate.
    unfold Qlt_bool. intros ->. reflexivity.
  - intros [a|] [b|]; simpl; try discriminate.
    unfold Qlt_bool. intros _ _ H. apply negb_false_iff. assumption.
  - intros [a|] [b|]; simpl; try discriminate.
    intros _. apply Qeq_bool_iff. reflexivity.
  - reflexivity.
Qed.

Lemma SFcompare_antisym (a b : SpecFloat.spec_float) :
  SpecFloat.SFcompare b a = option_map CompOpp (SpecFloat.SFcompare a b).
Proof.
  destruct a as [[]|[]| |[] m1 e1], b as [[]|[]| |[] m2 e2];
    simpl; try reflexivity;
    rewrite (Z.compare_antisym e1 e2); destruct (e1 ?= e2)%Z;
    simpl; try reflexivity;
    rewrite (Pos.compare_cont_antisym m1 m2 Eq); simpl; reflexivity.
Qed.

#[export] Instance binary64_NumOrder : NumOrder binary64.
Proof.
  split; simpl.
  - intros a b.
    rewrite FloatAxioms.leb_spec, FloatAxioms.ltb_spec.
    unfold SpecFloat.SFleb, SpecFloat.SFltb.
    rewrite (SFcompare_antisym (FloatOps.Prim2SF a) (FloatOps.Prim2SF b)).
    destruct (SpecFloat.SFcompare _ _) as [[]|]; simpl; congruence.
  - intros a b.
    rewrite !FloatAxioms.eqb_spec, FloatAxioms.leb_spec, FloatAxioms.ltb_spec.
    unfold SpecFloat.SFleb, SpecFloat.SFltb, SpecFloat.SFeqb.
    rewrite (SFcompare_antisym (FloatOps.Prim2SF a) (FloatOps.Prim2SF b)).
    destruct (FloatOps.Prim2SF a) as [[]|[]| |[] m1 e1],
             (FloatOps.Prim2SF b) as [[]|[]| |[] m2 e2];
      simpl; try congruence;
      destruct (e1 ?= e2)%Z; simpl; try congruence;
      destruct (Pos.compare_cont Eq m1 m2); simpl; congruence.
  - intros a b.
    rewrite !FloatAxioms.eqb_spec, FloatAxioms.ltb_spec.
    unfold SpecFloat.SFltb, SpecFloat.SFeqb.
    destruct (FloatOps.Prim2SF a) as [[]|[]| |[] m1 e1]; simpl; try congruence;
      rewrite ?Z.compare_refl, ?Pos.compare_cont_refl; try reflexivity.
    all: destruct (FloatOps.Prim2SF b) as [[]|[]| |[] m2 e2];
      simpl; congruence.
  - vm_compute. reflexivity.
Qed.

(** *** The summary values *)

Section Summary.

Context {F : Type} {num : Num F} {ord : NumOrder F}.
Variable D : Type.
Variable seasonal_decompose : series F -> nat -> option D.
Variable SARIMAX : series F -> option (nat -> F * (F * F)).
Local Open Scope num_scope.

Local Abbreviation run := (analyse seasonal_decompose SARIMAX).



(** A zero close in the last row stops the script at line 448. *)
Lemma summary_raises (data : series F) :
  30 <= length data ->
  (current_price_val data =? fromZ 0) = true ->
  summary (run data) = Some (inl ZeroDivisionError)
  /\ ~ In AnalysisCompleted (notices (run data)).
Proof.
  intros Hlen Hzero.
  assert (Hs : summary (run data) = Some (inl ZeroDivisionError)).
  { rewrite analyse_summary, prediction_section_runs by assumption.
    cbn [snd]. unfold prediction_summary, py_div. rewrite Hzero.
    reflexivity. }
  split; [assumption|].
  rewrite analyse_notices, Hs, prediction_section_runs by assumption.
  cbn [fst finished]. rewrite app_nil_r. intros Hin.
  apply in_app_or in Hin. destruct Hin as [Hin|Hin].
  - unfold decomposition_section in Hin.
    destruct (_ <? 60)%nat; [destruct Hin as [?|[]]; discriminate|].
    destruct (seasonal_decompose _ _); simpl in Hin;
      [contradiction | destruct Hin as [?|[]]; discriminate].
  - unfold fit_sarima_model in Hin.
    destruct (SARIMAX _); simpl in Hin;
      [contradiction | destruct Hin as [?|[]]; discriminate].
Qed.


End Summary.

(** *** Exact arithmetic *)

Section Exact.

Local Open Scope Q_scope.

Lemma Qlt_bool_iff (x y : Q) : Qlt_bool x y = true <-> x < y.
Proof.
  unfold Qlt_bool. rewrite negb_true_iff. split.
  - intros H. apply Qnot_le_lt. intros Hle.
    apply Qle_bool_iff in Hle. congruence.
  - intros H. destruct (Qle_bool y x) eqn:E; [|reflexivity].
    apply Qle_bool_iff in E. exfalso. apply (Qlt_not_le _ _ H E).
Qed.

Lemma map_nth_lt {A B : Type} (f : A -> B) (l : list A) (a : A) (b : B)
  (i : nat) :
  (i < length l)%nat -> nth i (map f l) b = f (nth i l a).
Proof.
  intros Hi. rewrite (nth_indep _ b (f a)) by (rewrite length_map; exact Hi).
  apply map_nth.
Qed.

(** A cleaned column holds rationals only. *)
Lemma dropna_finite (col : series exact) :
  exists qs : list Q, values (dropna col) = map Fin qs.
Proof.
  unfold values, dropna.
  induction col as [|[d [q|]] col [qs IH]]; simpl.
  - exists []. reflexivity.
  - exists (q :: qs). simpl. f_equal. exact IH.
  - exists qs. exact IH.
Qed.

Lemma all_positive_finite (vs : list exact) :
  all_positive vs ->
  exists qs : list Q, vs = map Fin qs /\ Forall (fun q => 0 < q) qs.
Proof.
  induction 1 as [|[q|] vs Hq _ (qs & -> & Hqs)]; simpl in *.
  - exists []. split; [reflexivity|constructor].
  - exists (q :: qs). split; [reflexivity|].
    constructor; [|exact Hqs]. apply Qlt_bool_iff. exact Hq.
  - discriminate.
Qed.

(** [Series.min()] of rationals: an element below all the others. *)
Lemma fold_min_exact (qs : list Q) (a : Q) :
  exists m : Q,
    fold_left (fun m y => if fltb y m then y else m) (map Fin qs) (Fin a)
    = Fin m
    /\ In m (a :: qs) /\ Forall (fun q => m <= q) (a :: qs).
Proof.
  revert a. induction qs as [|q qs IH]; intros a; simpl.
  - exists a. repeat split; auto. constructor; [apply Qle_refl|constructor].
  - destruct (Qlt_bool q a) eqn:E.
    + destruct (IH q) as (m & Hm & Hin & Hall). exists m.
      apply Qlt_bool_iff in E. inversion Hall as [|? ? Hmq Hrest]; subst.
      split; [exact Hm|]. split.
      * destruct Hin as [<-|Hin]; auto.
      * constructor; [|constructor; assumption].
        apply Qlt_le_weak. eapply Qle_lt_trans; eassumption.
    + destruct (IH a) as (m & Hm & Hin & Hall). exists m.
      inversion Hall as [|? ? Hma Hrest]; subst.
      split; [exact Hm|]. split.
      * destruct Hin as [<-|Hin]; auto.
      * constructor; [assumption|]. constructor; [|assumption].
        eapply Qle_trans; [exact Hma|].
        apply Qnot_lt_le. intros Hlt. apply Qlt_bool_iff in Hlt. congruence.
Qed.

Lemma series_min_exact (q : Q) (qs : list Q) :
  exists m : Q,
    series_min (map Fin (q :: qs)) = Fin m
    /\ In m (q :: qs) /\ Forall (fun x => m <= x) (q :: qs).
Proof. apply fold_min_exact. Qed.

(** The sum of a column of rationals. *)
Lemma fold_add_exact (qs : list Q) (a : Q) :
  fold_left fadd (map Fin qs) (Fin a) = Fin (fold_left Qplus qs a).
Proof.
  revert a. induction qs as [|q qs IH]; intros a; simpl; [reflexivity|].
  apply IH.
Qed.

Lemma fold_add_positive (qs : list Q) (a : Q) :
  Forall (fun q => 0 < q) qs -> 0 <= a -> qs <> [] ->
  0 < fold_left Qplus qs a.
Proof.
  intros Hqs. revert a.
  induction Hqs as [|q qs Hq Hqs IH]; intros a Ha Hne; [congruence|].
  simpl. destruct qs as [|q' qs'].
  - simpl. lra.
  - apply IH; [lra|discriminate].
Qed.

(** The mean of a non-empty column of positive numbers is positive. *)
Lemma mean_positive (vs : list exact) :
  vs <> [] -> all_positive vs ->
  exists v : Q, mean vs = Fin v /\ 0 < v.
Proof.
  intros Hne Hpos.
  destruct (all_positive_finite Hpos) as (qs & -> & Hqs).
  assert (Hqne : qs <> [])
    by (destruct qs; [exfalso; apply Hne; reflexivity | discriminate]).
  unfold mean. simpl fromZ. rewrite (fold_add_exact qs (inject_Z 0)).
  rewrite length_map.
  assert (Hlen : 0 < inject_Z (Z.of_nat (length qs))).
  { unfold Qlt. simpl. destruct qs; [congruence|simpl; lia]. }
  pose proof (fold_add_positive (a:=inject_Z 0) Hqs (Qle_refl _) Hqne) as Hsum.
  simpl. destruct (Qeq_bool _ 0) eqn:E.
  - apply Qeq_bool_iff in E. rewrite E in Hlen. lra.
  - eexists. split; [reflexivity|].
    apply Qlt_shift_div_l; [exact Hlen|]. lra.
Qed.

Lemma Forall2_map_same {A B : Type} (R : B -> B -> Prop) (f g : A -> B)
  (l : list A) :
  (forall x, In x l -> R (f x) (g x)) -> Forall2 R (map f l) (map g l).
Proof.
  induction l as [|a l IH]; intros H; simpl; constructor.
  - apply H. left. reflexivity.
  - apply IH. intros x Hx. apply H. right. exact Hx.
Qed.

Lemma nth_repeat_lt {A : Type} (a d : A) (n i : nat) :
  (i < n)%nat -> nth i (repeat a n) d = a.
Proof.
  intros Hi. rewrite (nth_indep _ d a) by (rewrite repeat_length; exact Hi).
  apply nth_repeat.
Qed.

(** What the shift does to a cleaned column that has a value at or below
    zero: [m] is the minimum and every [x] becomes [x - m + 1]. *)
Lemma shifted_values (col : series exact) :
  dropna col <> [] ->
  any_nonpositive (values (dropna col)) = true ->
  exists (qs : list Q) (m : Q),
    values (dropna col) = map Fin qs
    /\ series_min (values (dropna col)) = Fin m
    /\ Forall (fun x => m <= x) qs
    /\ values (sanitize col) = map (fun x => Fin (x - m + inject_Z 1)) qs.
Proof.
  intros Hne Hany.
  destruct (dropna_finite col) as [qs Hqs].
  destruct qs as [|q qs].
  { destruct (dropna col); [congruence|discriminate]. }
  destruct (series_min_exact q qs) as (m & Hm & _ & Hall).
  exists (q :: qs), m. rewrite Hqs. repeat split; try assumption.
  unfold sanitize, positivity_shift. rewrite Hany.
  destruct (dropna col) as [|p s] eqn:E; [congruence|].
  cbn [length Nat.ltb Nat.leb andb].
  unfold values in *. rewrite map_map. cbn [snd].
  rewrite <- (map_map snd (fun x => (x - series_min (map snd (p :: s))
                                     + fromZ 1)%num)).
  rewrite Hqs, Hm, map_map. reflexivity.
Qed.

(** Sanitized values are strictly positive, shifted or not. *)
Lemma sanitize_positive (col : series exact) :
  all_positive (values (sanitize col)).
Proof.
  destruct (any_nonpositive (values (dropna col))) eqn:Hany.
  - destruct (dropna col) as [|p s] eqn:E.
    { unfold sanitize, positivity_shift. rewrite E. constructor. }
    destruct (@shifted_values col) as (qs & m & _ & _ & Hall & ->);
      [rewrite E; discriminate | rewrite E; exact Hany |].
    unfold all_positive. rewrite Forall_map.
    eapply Forall_impl; [|exact Hall]. intros x Hx. cbv beta in Hx. simpl.
    apply Qlt_bool_iff. unfold inject_Z. lra.
  - unfold sanitize, positivity_shift. rewrite Hany, andb_false_r.
    destruct (dropna_finite col) as [qs Hqs]. rewrite Hqs in *.
    unfold all_positive. rewrite Forall_map. apply Forall_forall.
    intros x Hx. simpl. apply Qlt_bool_iff.
    unfold any_nonpositive in Hany.
    assert (Hx' : (Fin x <=? fromZ 0)%num = false).
    { destruct (Fin x <=? fromZ 0)%num eqn:E; [|reflexivity].
      assert (existsb (fun x => (x <=? fromZ 0)%num) (map Fin qs) = true).
      { apply existsb_exists. exists (Fin x). split; [|exact E].
        apply in_map. exact Hx. }
      congruence. }
    simpl in Hx'. apply Qnot_le_lt. intros Hle.
    apply Qle_bool_iff in Hle. unfold inject_Z in *. congruence.
Qed.

(** C3, in exact arithmetic.  For every cleaned series that is not empty
    and has a value at or below zero, sanitization adds
    [(min(values) * -1) + 1] to every value and leaves the dates alone;
    afterwards every value is strictly above zero, and one value is below
    another after the shift exactly when it was before. *)
Theorem C3_shift_exact :
  forall (col : series exact),
    let s := dropna col in
    s <> [] ->
    any_nonpositive (values s) = true ->
    Forall2 exact_eq
      (values (sanitize col))
      (map (fun x => (x + spec_shift (values s))%num) (values s))
    /\ map fst (sanitize col) = map fst s
    /\ all_positive (values (sanitize col))
    /\ order_preserved (values s) (values (sanitize col)).
Proof.
  intros col s Hne Hany. subst s.
  destruct (shifted_values col Hne Hany) as (qs & m & Hqs & Hm & Hall & Hsan).
  split; [|split; [|split]].
  - rewrite Hsan. unfold spec_shift. rewrite Hm, Hqs, map_map.
    apply Forall2_map_same. intros x _. simpl. unfold inject_Z. lra.
  - unfold sanitize. apply positivity_shift_dates.
  - apply sanitize_positive.
  - unfold order_preserved. rewrite Hsan, Hqs, length_map.
    intros i j Hi Hj.
    rewrite !(map_nth_lt _ _ 0 _ Hi), !(map_nth_lt _ _ 0 _ Hj).
    simpl. rewrite !Qlt_bool_iff. unfold inject_Z. split; intros H; lra.
Qed.

(** Both paths of [fit_sarima_model] keep the point forecast inside its
    interval on a positive series. *)
Lemma forecast_ordered :
  forall (SARIMAX : series exact -> option (nat -> exact * (exact * exact))),
    (forall s fitted i, SARIMAX s = Some fitted -> interval_ordered (fitted i)) ->
    forall (s : series exact) (horizon : nat),
      s <> [] ->
      all_positive (values s) ->
      let fc := snd (fit_sarima_model SARIMAX s horizon) in
      let predicted := forecast_values fc in
      let lower := map fst (confidence_intervals fc) in
      let upper := map snd (confidence_intervals fc) in
      length predicted = horizon
      /\ length lower = horizon
      /\ length upper = horizon
      /\ forall i, (i < horizon)%nat ->
           (nth i lower nan <=? nth i predicted nan)%num = true
           /\ (nth i predicted nan <=? nth i upper nan)%num = true.
Proof.
  intros SARIMAX Hlib s horizon Hne Hpos fc predicted lower upper.
  destruct (fit_sarima_model_lengths SARIMAX s horizon) as [Hv Hc].
  split; [exact Hv|].
  split; [subst lower; rewrite length_map; exact Hc|].
  split; [subst upper; rewrite length_map; exact Hc|].
  intros i Hi. subst predicted lower upper fc.
  unfold fit_sarima_model. destruct (SARIMAX s) as [fitted|] eqn:Hfit.
  - cbn [snd forecast_values confidence_intervals]. rewrite !map_map.
    rewrite !(map_seq_nth _ _ _ Hi). apply (Hlib s fitted i Hfit).
  - cbn [snd forecast_values confidence_intervals].
    rewrite !map_map. cbn [fst snd]. rewrite !map_repeat.
    rewrite !(nth_repeat_lt _ _ Hi).
    destruct (@mean_positive (lastn 10 (values s))) as (v & -> & Hv0).
    + apply lastn_nonempty; [lia|]. destruct s; [congruence|discriminate].
    + apply lastn_incl. exact Hpos.
    + simpl. rewrite !Qle_bool_iff. split; lra.
Qed.



(** The same in the script: whenever the cleaned column keeps a value, the
    forecast frame is ordered row by row. *)
Lemma frame_ordered (D : Type)
  (seasonal_decompose : series exact -> nat -> option D)
  (SARIMAX : series exact -> option (nat -> exact * (exact * exact)))
  (data : series exact) (fr : @frame exact) :
  (forall s fitted i, SARIMAX s = Some fitted -> interval_ordered (fitted i)) ->
  dropna data <> [] ->
  future_df (analyse seasonal_decompose SARIMAX data) = Some fr ->
  forall i, (i < 30)%nat ->
    (nth i (Lower_CI fr) nan <=? nth i (Predicted_Close fr) nan)%num = true
    /\ (nth i (Predicted_Close fr) nan <=? nth i (Upper_CI fr) nan)%num = true.
Proof.
  intros Hlib Hne Hfr.
  assert (Hlen : (30 <= length data)%nat)
    by (apply (forecast_gate seasonal_decompose SARIMAX); eauto).
  rewrite analyse_future_df, prediction_section_runs in Hfr by assumption.
  cbn [fst snd] in Hfr. injection Hfr as <-.
  cbn [Predicted_Close Lower_CI Upper_CI].
  apply (forecast_ordered SARIMAX Hlib).
  - intros E. apply Hne. apply (f_equal (@length _)) in E.
    unfold sanitize in E. rewrite positivity_shift_length in E.
    destruct (dropna data); [reflexivity|discriminate].
  - apply sanitize_positive.
Qed.

(** C10, in exact arithmetic.  For every summary of a fallback forecast
    whose trailing-10 mean [v] is strictly positive, the final prediction
    is [v], the confidence width (1.05 v - 0.95 v) / v x 100 is 10, and the
    bucket is "Medium". *)
Theorem C10_fallback_medium_exact :
  forall (D : Type) (seasonal_decompose : series exact -> nat -> option D)
         (SARIMAX : series exact -> option (nat -> exact * (exact * exact)))
         (data : series exact) (m : @metrics exact),
    SARIMAX (sanitize data) = None ->
    summary (analyse seasonal_decompose SARIMAX data) = Some (inr m) ->
    let v := mean (lastn 10 (values (sanitize data))) in
    (fromZ 0 <? v)%num = true ->
    last_pred_price m = v
    /\ exact_eq (confidence_width m) (fromZ 10)
    /\ confidence_level m = Medium.
Proof.
  intros D seasonal_decompose SARIMAX data m Hraise Hsum v Hv.
  assert (Hlen : (30 <= length data)%nat).
  { destruct (Nat.lt_ge_cases (length data) 30) as [Hlt|]; [|assumption].
    rewrite analyse_summary, prediction_section_skipped in Hsum by assumption.
    discriminate. }
  destruct (fallback_frame seasonal_decompose SARIMAX data Hlen Hraise)
    as [_ Hs].
  rewrite Hs in Hsum. fold v in Hsum. clear Hs.
  destruct (py_div _ _) as [e|ratio]; [discriminate|].
  injection Hsum as <-. cbn [last_pred_price confidence_width confidence_level].
  destruct v as [q|]; [|discriminate].
  simpl in Hv. apply Qlt_bool_iff in Hv. unfold inject_Z in Hv.
  assert (Hq : Qeq_bool q 0 = false).
  { destruct (Qeq_bool q 0) eqn:E; [|reflexivity].
    apply Qeq_bool_iff in E. lra. }
  simpl. rewrite Hq. simpl.
  assert (Hw : (q * 1.05 - q * 0.95) / q * inject_Z 100 == 10).
  { unfold inject_Z. field. intros E. lra. }
  split; [reflexivity|]. split; [exact Hw|].
  unfold confidence_bucket. simpl.
  destruct (Qlt_bool _ (inject_Z 10)) eqn:E10.
  { apply Qlt_bool_iff in E10. unfold inject_Z in *. lra. }
  destruct (Qlt_bool _ (inject_Z 20)) eqn:E20; [reflexivity|].
  assert (H20 : Qlt_bool ((q * 1.05 - q * 0.95) / q * inject_Z 100)
                  (inject_Z 20) = true)
    by (apply Qlt_bool_iff; unfold inject_Z in *; lra).
  congruence.
Qed.

End Exact.

(** *** A column with no valid close *)

Section Missing.

Context {F : Type} {num : Num F}.
Variable D : Type.
Variable seasonal_decompose : series F -> nat -> option D.
Variable SARIMAX : series F -> option (nat -> F * (F * F)).

Local Abbreviation run := (analyse seasonal_decompose SARIMAX).

(** The sanitizer of the script agrees with the specification's on every
    column that keeps a value. *)
Lemma sanitize_refines_spec (data : series F) :
  dropna data <> [] -> spec_sanitize data = inr (sanitize data).
Proof.
  intros Hne. unfold spec_sanitize.
  destruct (dropna data); [congruence|reflexivity].
Qed.

(** C8, as the script has it.  When every close of the column is missing,
    sanitization returns the empty series without an error, no shift is
    applied, and the decomposition is skipped by its length gate, with the
    notice "need 60, got 0". *)
Theorem C8_all_missing_column :
  forall (data : series F),
    dropna data = [] ->
    let r := run data in
    sanitize data = []
    /\ close_series r = []
    /\ decomposition r = DecompositionSkipped D
    /\ (forall result, decomposition r <> Decomposed result)
    /\ In (NotEnoughForDecomposition 60 0) (notices r).
Proof.
  intros data Hempty r.
  assert (Hsan : sanitize data = [])
    by (unfold sanitize; rewrite Hempty; reflexivity).
  subst r. rewrite analyse_close_series, analyse_decomposition.
  rewrite analyse_notices, Hsan.
  split; [reflexivity|]. split; [reflexivity|]. split; [reflexivity|].
  split; [discriminate|]. simpl. auto.
Qed.

End Missing.

(** *** Runs in binary64 *)


(** C4 at a table of 30 rows with 25 closes: the sanitized series has 25
    points, and the forecast section runs all the same, with no
    insufficient-data error, whatever the library calls return. *)
Theorem C4_forecast_runs_on_25_points :
  forall (D : Type) (seasonal_decompose : series binary64 -> nat -> option D)
         (SARIMAX : series binary64 ->
                    option (nat -> binary64 * (binary64 * binary64))),
    let r := analyse seasonal_decompose SARIMAX gappy_table in
    length gappy_table = 30
    /\ length (close_series r) = 25
    /\ (exists fr, future_df r = Some fr)
    /\ ~ In NotEnoughForSarima (notices r).
Proof.
  intros D seasonal_decompose SARIMAX r. subst r.
  assert (Hlen : length gappy_table = 30) by reflexivity.
  split; [exact Hlen|].
  split; [rewrite analyse_close_series; vm_compute; reflexivity|].
  split; [apply forecast_gate | apply forecast_notice]; rewrite Hlen; lia.
Qed.

(** On that table the series handed to the forecast ends on 2022-01-27 and
    the forecast dates start on 2022-02-02, the day after the last row. *)
Example dates_follow_the_table :
  last (map fst (sanitize gappy_table)) 0%Z = (day0 + 24)%Z
  /\ last (map fst gappy_table) 0%Z = (day0 + 29)%Z
  /\ nth 0 (future_dates gappy_table) 0%Z = (day0 + 30)%Z.
Proof. split; [|split]; vm_compute; reflexivity. Qed.

(** C3 fails in binary64: the closes 0, 2^-60 and 2^-59 all become 1, so
    two closes that were strictly ordered are equal after the shift. *)
Lemma C3_counterexample_binary64 :
  let s := dropna tiny_prices in
  s <> []
  /\ any_nonpositive (values s) = true
  /\ values (sanitize tiny_prices) = [fromZ 1; fromZ 1; fromZ 1]
  /\ ~ order_preserved (values s) (values (sanitize tiny_prices)).
Proof.
  cbv zeta.
  split; [vm_compute; discriminate|].
  split; [vm_compute; reflexivity|].
  split; [vm_compute; reflexivity|].
  intros H.
  assert (H1 : 1 < length (values (dropna tiny_prices)))
    by (vm_compute; lia).
  assert (H2 : 2 < length (values (dropna tiny_prices)))
    by (vm_compute; lia).
  destruct (H 1 2 H1 H2) as [Hafter _].
  assert (Hbefore : (nth 1 (values (dropna tiny_prices)) nan
                     <? nth 2 (values (dropna tiny_prices)) nan)%num = true)
    by (vm_compute; reflexivity).
  apply Hafter in Hbefore. vm_compute in Hbefore. discriminate.
Qed.

(** C8 fails on 30 rows with no close at all: nothing is raised, the
    sanitized series is empty where the specification's sanitizer fails,
    the forecast section runs on it and yields NaN at every step, and the
    script reports completion. *)
Lemma C8_counterexample :
  let r := analyse decompose_raises always_raises all_missing_table in
  dropna all_missing_table = []
  /\ spec_sanitize all_missing_table = inl EmptySeriesError
  /\ close_series r = []
  /\ future_df r =
       Some {| Date := date_range (day0 + 30)%Z 30;
               Predicted_Close := repeat nan 30;
               Lower_CI := repeat nan 30;
               Upper_CI := repeat nan 30 |}
  /\ notices r =
       [NotEnoughForDecomposition 60 0; SarimaFallback; AnalysisCompleted].
Proof.
  cbv zeta.
  split; [vm_compute; reflexivity|].
  split; [vm_compute; reflexivity|].
  split; [vm_compute; reflexivity|].
  split; vm_compute; reflexivity.
Qed.

(** C10 fails in binary64: on 40 days at 19 the fallback has the positive
    mean 19, the bounds 18.05 and 19.95 as rounded, the width
    9.999999999999993, and so the bucket "High". *)
Lemma C10_counterexample_binary64 :
  let r := analyse decompose_raises always_raises flat19 in
  let v := mean (lastn 10 (values (sanitize flat19))) in
  In SarimaFallback (notices r)
  /\ v = fromZ 19
  /\ (fromZ 0 <? v)%num = true
  /\ exists m,
       summary r = Some (inr m)
       /\ (confidence_width m <? fromZ 10)%num = true
       /\ confidence_level m = High.
Proof.
  cbv zeta.
  split; [vm_compute; tauto|].
  split; [vm_compute; reflexivity|].
  split; [vm_compute; reflexivity|].
  eexists. split; [reflexivity|].
  split; vm_compute; reflexivity.
Qed.

(** The 45-point scenario: no decomposition, a forecast all the same. *)
Example scenario_45_points :
  let r := analyse decompose_raises always_raises flat45 in
  length (close_series r) = 45
  /\ decomposition r = DecompositionSkipped unit
  /\ notices r =
       [NotEnoughForDecomposition 60 45; SarimaFallback; AnalysisCompleted]
  /\ option_map (@Predicted_Close binary64) (future_df r) =
       Some (repeat (fromZ 100) 30).
Proof.
  cbv zeta. split; [vm_compute; reflexivity|].
  split; [vm_compute; reflexivity|].
  split; vm_compute; reflexivity.
Qed.

(** *** Witnesses *)


Lemma C3_witness :
  let s := dropna dipped_prices in
  Forall2 exact_eq
    (values (sanitize dipped_prices))
    (map (fun x => (x + spec_shift (values s))%num) (values s))
  /\ map fst (sanitize dipped_prices) = map fst s
  /\ all_positive (values (sanitize dipped_prices))
  /\ order_preserved (values s) (values (sanitize dipped_prices)).
Proof.
  apply (C3_shift_exact dipped_prices).
  - vm_compute. discriminate.
  - vm_compute. reflexivity.
Defined.



Lemma C8_witness :
  let r := analyse decompose_raises always_raises all_missing_table in
  sanitize all_missing_table = []
  /\ close_series r = []
  /\ decomposition r = DecompositionSkipped unit
  /\ (forall result, decomposition r <> Decomposed result)
  /\ In (NotEnoughForDecomposition 60 0) (notices r).
Proof.
  apply (C8_all_missing_column decompose_raises always_raises
           all_missing_table).
  vm_compute. reflexivity.
Defined.

Lemma C10_witness :
  exists m,
    summary (analyse decompose_raises always_raises flat19_exact)
      = Some (inr m)
    /\ last_pred_price m = mean (lastn 10 (values (sanitize flat19_exact)))
    /\ exact_eq (confidence_width m) (fromZ 10)
    /\ confidence_level m = Medium.
Proof.
  eexists. split; [reflexivity|].
  apply (C10_fallback_medium_exact decompose_raises always_raises
           flat19_exact).
  - reflexivity.
  - reflexivity.
  - vm_compute. reflexivity.
Defined.

(** ** Further properties of the script *)

(** *** What the user is shown *)

Section Trace.

Context {F : Type} {num : Num F}.
Variable D : Type.
Variable seasonal_decompose : series F -> nat -> option D.
Variable SARIMAX : series F -> option (nat -> F * (F * F)).
Local Open Scope num_scope.

Local Abbreviation run := (analyse seasonal_decompose SARIMAX).

(** The notices of a run, section by section. *)
Lemma notices_shape (data : series F) :
  notices (run data) =
    (if (length (sanitize data) <? 60)%nat
     then [NotEnoughForDecomposition 60 (length (sanitize data))]
     else match seasonal_decompose (sanitize data) 30 with
          | Some _ => []
          | None => [DecompositionFailed]
          end)
    ++ (if (length data <? 30)%nat
        then [NotEnoughForSarima]
        else match SARIMAX (sanitize data) with
             | Some _ => []
             | None => [SarimaFallback]
             end)
    ++ (if (length data <? 30)%nat
        then [AnalysisCompleted]
        else if current_price_val data =? fromZ 0
             then []
             else [AnalysisCompleted]).
Proof.
  rewrite analyse_notices, analyse_summary.
  unfold decomposition_section, prediction_section.
  destruct (length (sanitize data) <? 60)%nat;
    [|destruct (seasonal_decompose _ _)];
    (destruct (length data <? 30)%nat; [reflexivity|]);
    unfold fit_sarima_model; destruct (SARIMAX _);
    cbn [fst snd]; unfold prediction_summary, py_div;
    destruct (current_price_val data =? fromZ 0); reflexivity.
Qed.

Ltac trace_cases data seasonal_decompose SARIMAX :=
  destruct (Nat.ltb_spec (length (sanitize data)) 60);
  [|destruct (seasonal_decompose (sanitize data) 30)];
  (destruct (Nat.ltb_spec (length data) 30);
   [|destruct (SARIMAX (sanitize data));
     destruct (current_price_val data =? fromZ 0)%num]);
  simpl;
  intuition (try discriminate; try lia; try congruence).

(** X1.  The fallback warning is shown exactly when the forecast section
    runs (the table has at least 30 rows) and the SARIMA fit raises on the
    sanitized series. *)
Theorem X1_fallback_warning_iff :
  forall (data : series F),
    In SarimaFallback (notices (run data))
    <-> (30 <= length data /\ SARIMAX (sanitize data) = None).
Proof.
  intros data. rewrite notices_shape.
  trace_cases data seasonal_decompose SARIMAX.
Qed.

(** X2.  The decomposition section shows one of two notices: the
    insufficient-data warning, with 60 and the sanitized length, exactly
    when that length is below 60; and the failure message exactly when the
    length is at least 60 and [seasonal_decompose] raises. *)
Theorem X2_decomposition_notices :
  forall (data : series F),
    let n := length (sanitize data) in
    (forall need got,
        In (NotEnoughForDecomposition need got) (notices (run data))
        <-> (need = 60 /\ got = n /\ n < 60))
    /\ (In DecompositionFailed (notices (run data))
        <-> (60 <= n /\ seasonal_decompose (sanitize data) 30 = None)).
Proof.
  intros data n. subst n. rewrite notices_shape.
  split; [intros need got|];
    trace_cases data seasonal_decompose SARIMAX.
Qed.


(** X4.  Completion is reported unless line 448 raises: the success box is
    shown exactly when the table has fewer than 30 rows or its last close is
    not zero. *)
Theorem X4_completion_iff :
  forall (data : series F),
    In AnalysisCompleted (notices (run data))
    <-> (length data < 30 \/ (current_price_val data =? fromZ 0) = false).
Proof.
  intros data. rewrite notices_shape.
  trace_cases data seasonal_decompose SARIMAX.
Qed.

(** X5.  With at least 30 rows and a zero last close, the forecast frame is
    produced, then the percent change of line 448 divides by the close and
    raises [ZeroDivisionError]: there is no summary and no success box.
    Line 274 guards the same quotient; line 448 does not. *)
Theorem X5_zero_close_raises :
  forall (data : series F),
    30 <= length data ->
    (current_price_val data =? fromZ 0) = true ->
    (exists fr, future_df (run data) = Some fr)
    /\ summary (run data) = Some (inl ZeroDivisionError)
    /\ ~ In AnalysisCompleted (notices (run data)).
Proof.
  intros data Hlen Hzero. split.
  - apply forecast_gate. exact Hlen.
  - apply (summary_raises seasonal_decompose SARIMAX data Hlen Hzero).
Qed.

(** X6.  When the fit succeeds, the forecast frame passes the fitted model
    through: at every step the predicted close, the lower and the upper
    bound are the model's own mean and interval, nothing is rescaled or
    clipped, and no fallback warning is shown. *)
Theorem X6_fitted_frame :
  forall (data : series F) (fitted : nat -> F * (F * F)),
    30 <= length data ->
    SARIMAX (sanitize data) = Some fitted ->
    (exists fr,
        future_df (run data) = Some fr
        /\ forall i, i < 30 ->
             nth i (Predicted_Close fr) nan = fst (fitted i)
             /\ nth i (Lower_CI fr) nan = fst (snd (fitted i))
             /\ nth i (Upper_CI fr) nan = snd (snd (fitted i)))
    /\ ~ In SarimaFallback (notices (run data)).
Proof.
  intros data fitted Hlen Hfit. split.
  - eexists. split.
    + rewrite analyse_future_df, prediction_section_runs by assumption.
      cbn [fst snd]. reflexivity.
    + intros i Hi. cbn [Predicted_Close Lower_CI Upper_CI].
      unfold fit_sarima_model. rewrite Hfit.
      cbn [snd forecast_values confidence_intervals].
      rewrite !map_map, !(map_seq_nth _ _ _ Hi). auto.
  - rewrite notices_shape, Hfit.
    destruct (_ <? 60)%nat; [|destruct (seasonal_decompose _ _)];
      destruct (Nat.ltb_spec (length data) 30); try lia;
      destruct (current_price_val data =? fromZ 0);
      simpl; intuition discriminate.
Qed.

End Trace.

(** *** Dates *)

Section Dates.

Context {F : Type} {num : Num F}.

Lemma sorted_dates_filter (keep : date * F -> bool) (col : series F) :
  StronglySorted Z.lt (map fst col) ->
  StronglySorted Z.lt (map fst (filter keep col)).
Proof.
  induction col as [|p col IH]; simpl; intros H; [constructor|].
  apply StronglySorted_inv in H. destruct H as [Hs Hall].
  destruct (keep p); simpl; [|apply IH; exact Hs].
  constructor; [apply IH; exact Hs|].
  rewrite Forall_forall in *. intros d Hd. apply Hall.
  apply in_map_iff in Hd. destruct Hd as (q & <- & Hq).
  apply filter_In in Hq. apply in_map. tauto.
Qed.

Lemma sorted_last_is_max (l : list date) :
  StronglySorted Z.lt l -> forall d, In d l -> (d <= last l 0)%Z.
Proof.
  induction 1 as [|a l Hs IH Hall]; intros d Hd; [destruct Hd|].
  destruct l as [|b l'].
  - destruct Hd as [<-|[]]. simpl. lia.
  - change (@last date (a :: b :: l') 0%Z) with (@last date (b :: l') 0%Z).
    destruct Hd as [<-|Hd]; [|apply IH; exact Hd].
    rewrite Forall_forall in Hall.
    assert (Hb : In b (b :: l')) by (left; reflexivity).
    pose proof (Hall b Hb). pose proof (IH b Hb). lia.
Qed.

Lemma date_range_sorted (start : date) (periods : nat) :
  StronglySorted Z.lt (date_range start periods).
Proof.
  unfold date_range. generalize 0. induction periods as [|n IH]; intros a.
  - constructor.
  - simpl. constructor; [apply IH|].
    apply Forall_forall. intros d Hd. apply in_map_iff in Hd.
    destruct Hd as (i & <- & Hi). apply in_seq in Hi. lia.
Qed.

(** X7.  When the table's dates increase strictly, so do the dates of the
    sanitized series; and a date is in the sanitized series exactly when
    its row has a close: sanitization drops the rows with a missing close
    and nothing else, and adds or reorders no date. *)
Theorem X7_sanitize_keeps_dates :
  forall (col : series F),
    StronglySorted Z.lt (map fst col) ->
    StronglySorted Z.lt (map fst (sanitize col))
    /\ (forall d, In d (map fst (sanitize col))
                  <-> exists x, In (d, x) col /\ isnan x = false)
    /\ length (sanitize col) =
       length (filter (fun p => negb (isnan (snd p))) col).
Proof.
  intros col Hsorted. unfold sanitize.
  rewrite positivity_shift_dates, positivity_shift_length.
  split; [apply sorted_dates_filter; exact Hsorted|].
  split; [|reflexivity].
  intros d. unfold dropna. rewrite in_map_iff. split.
  - intros ([d' x] & <- & Hp). apply filter_In in Hp.
    exists x. simpl in *. split; [tauto|].
    destruct Hp as [_ Hp]. apply negb_true_iff in Hp. exact Hp.
  - intros (x & Hin & Hx). exists (d, x). split; [reflexivity|].
    apply filter_In. simpl. rewrite Hx. auto.
Qed.

(** X8.  When the table's dates increase strictly, every forecast date is
    later than every date of the table, and the forecast dates increase
    strictly themselves: the forecast never overlaps the history and has
    no duplicate day. *)
Theorem X8_forecast_after_history :
  forall (data : series F),
    StronglySorted Z.lt (map fst data) ->
    (forall d f, In d (map fst data) -> In f (future_dates data) ->
                 (d < f)%Z)
    /\ StronglySorted Z.lt (future_dates data).
Proof.
  intros data Hsorted. split; [|apply date_range_sorted].
  intros d f Hd Hf. pose proof (sorted_last_is_max Hsorted d Hd) as Hmax.
  unfold future_dates, date_range in Hf. apply in_map_iff in Hf.
  destruct Hf as (i & <- & _). lia.
Qed.

End Dates.

(** *** More on exact arithmetic *)

Section ExactMore.

Local Open Scope Q_scope.

(** A series of positive values has nothing to clean and nothing to shift. *)
Lemma positive_is_clean (s : series exact) :
  all_positive (values s) ->
  dropna s = s /\ any_nonpositive (values s) = false.
Proof.
  unfold all_positive, values, dropna, any_nonpositive.
  induction s as [|[d x] s IH]; simpl; intros H; [auto|].
  inversion H as [|? ? Hx Hs]; subst. destruct (IH Hs) as [Hd Ha].
  destruct x as [q|]; [|discriminate]. simpl in *.
  apply Qlt_bool_iff in Hx. unfold inject_Z in Hx.
  split; [f_equal; exact Hd|].
  rewrite Ha, orb_false_r.
  destruct (Qle_bool q (inject_Z 0)) eqn:E; [|reflexivity].
  apply Qle_bool_iff in E. unfold inject_Z in E. lra.
Qed.

(** X9.  Sanitizing twice is sanitizing once: a sanitized series has no
    missing entry and no value at or below zero, so a second pass neither
    drops nor shifts anything. *)
Theorem X9_sanitize_idempotent :
  forall (col : series exact), sanitize (sanitize col) = sanitize col.
Proof.
  intros col.
  destruct (positive_is_clean (sanitize col) (sanitize_positive col))
    as [Hclean Hpos].
  unfold sanitize at 1. rewrite Hclean. unfold positivity_shift.
  rewrite Hpos, andb_false_r. reflexivity.
Qed.

(** X10.  When the shift is applied, the smallest value becomes exactly 1,
    every value is at least 1, and the difference between any two values
    is what it was before the shift. *)
Theorem X10_shift_anchors_minimum :
  forall (col : series exact),
    let before := values (dropna col) in
    let after := values (sanitize col) in
    dropna col <> [] ->
    any_nonpositive before = true ->
    Exists (fun x => exact_eq x (fromZ 1)) after
    /\ Forall (fun x => (fromZ 1 <=? x)%num = true) after
    /\ forall i j, (i < length before)%nat -> (j < length before)%nat ->
         exact_eq (nth i after nan - nth j after nan)%num
                  (nth i before nan - nth j before nan)%num.
Proof.
  intros col before after Hne Hany. subst before after.
  destruct (shifted_values col Hne Hany) as (qs & m & Hqs & Hm & Hall & Hsan).
  assert (Hin : In m qs).
  { destruct qs as [|q qs].
    - destruct (dropna col); [congruence|discriminate].
    - rewrite Hqs in Hm.
      destruct (series_min_exact q qs) as (m' & Hm' & Hin' & _).
      rewrite Hm' in Hm. injection Hm as <-. exact Hin'. }
  rewrite Hsan, Hqs. split; [|split].
  - apply Exists_exists. exists (Fin (m - m + inject_Z 1)). split.
    + apply (in_map (fun x => Fin (x - m + inject_Z 1))). exact Hin.
    + simpl. unfold inject_Z. lra.
  - rewrite Forall_map. eapply Forall_impl; [|exact Hall].
    intros x Hx. cbv beta in Hx. simpl. apply Qle_bool_iff.
    unfold inject_Z. lra.
  - rewrite length_map. intros i j Hi Hj.
    rewrite !(map_nth_lt _ _ 0 _ Hi), !(map_nth_lt _ _ 0 _ Hj).
    simpl. unfold inject_Z. lra.
Qed.

(** The sum of a column from any starting value. *)
Lemma fold_add_acc (qs : list Q) (a : Q) :
  fold_left Qplus qs a == a + fold_left Qplus qs 0.
Proof.
  revert a. induction qs as [|q qs IH]; intros a; simpl; [lra|].
  rewrite (IH (a + q)), (IH (0 + q)). lra.
Qed.

Lemma length_positive (qs : list Q) :
  qs <> [] -> 0 < inject_Z (Z.of_nat (length qs)).
Proof.
  intros Hne. unfold Qlt. simpl. destruct qs; [congruence|simpl; lia].
Qed.

(** The mean of a non-empty column of rationals is its sum over its
    length. *)
Lemma mean_exact (qs : list Q) :
  qs <> [] ->
  mean (map Fin qs)
  = Fin (fold_left Qplus qs (inject_Z 0) / inject_Z (Z.of_nat (length qs))).
Proof.
  intros Hne. unfold mean. simpl fromZ.
  rewrite (fold_add_exact qs (inject_Z 0)), length_map. simpl.
  pose proof (length_positive Hne) as Hlen.
  destruct (Qeq_bool _ 0) eqn:E; [|reflexivity].
  apply Qeq_bool_iff in E. rewrite E in Hlen. lra.
Qed.

Lemma sum_bounds (qs : list Q) (lo hi : Q) :
  Forall (fun q => lo <= q <= hi) qs ->
  inject_Z (Z.of_nat (length qs)) * lo <= fold_left Qplus qs 0
  /\ fold_left Qplus qs 0 <= inject_Z (Z.of_nat (length qs)) * hi.
Proof.
  induction 1 as [|q qs Hq Hqs [IHlo IHhi]]; simpl fold_left.
  - simpl. unfold inject_Z. lra.
  - rewrite (fold_add_acc qs (0 + q)).
    change (length (q :: qs)) with (S (length qs)).
    rewrite Nat2Z.inj_succ, <- Z.add_1_r, inject_Z_plus.
    unfold inject_Z at 2 4. lra.
Qed.

(** The mean lies between any two bounds of the values. *)
Lemma mean_between (qs : list Q) (lo hi : Q) :
  qs <> [] ->
  Forall (fun q => lo <= q <= hi) qs ->
  exists v : Q, mean (map Fin qs) = Fin v /\ lo <= v <= hi.
Proof.
  intros Hne Hall. rewrite (mean_exact Hne). eexists. split; [reflexivity|].
  pose proof (length_positive Hne) as Hlen.
  destruct (sum_bounds Hall) as [Hlo Hhi].
  assert (Hsum : fold_left Qplus qs (inject_Z 0) == fold_left Qplus qs 0)
    by reflexivity.
  split.
  - apply Qle_shift_div_l; [exact Hlen|]. rewrite Hsum. lra.
  - apply Qle_shift_div_r; [exact Hlen|]. rewrite Hsum. lra.
Qed.

(** X11.  The fallback forecast stays within the range of the closes it
    averages: when the last ten values are rationals between [lo] and [hi],
    every step predicts the same [v] with [lo <= v <= hi].  In particular a
    tail that is constant at [c] is forecast at [c]. *)
Theorem X11_fallback_within_range :
  forall (SARIMAX : series exact -> option (nat -> exact * (exact * exact)))
         (s : series exact) (horizon : nat) (qs : list Q) (lo hi : Q),
    SARIMAX s = None ->
    lastn 10 (values s) = map Fin qs ->
    qs <> [] ->
    Forall (fun q => lo <= q <= hi) qs ->
    exists v : Q,
      forecast_values (snd (fit_sarima_model SARIMAX s horizon))
      = repeat (Fin v) horizon
      /\ lo <= v <= hi
      /\ (lo == hi -> v == lo).
Proof.
  intros SARIMAX s horizon qs lo hi Hraise Htail Hne Hall.
  destruct (mean_between Hne Hall) as (v & Hv & Hrange).
  exists v. split; [|split; [exact Hrange|lra]].
  unfold fit_sarima_model. rewrite Hraise, Htail, Hv. reflexivity.
Qed.

Lemma lastn_map {A B : Type} (f : A -> B) (n : nat) (l : list A) :
  lastn n (map f l) = map f (lastn n l).
Proof. unfold lastn. rewrite length_map. apply skipn_map. Qed.

Lemma sum_shifted (qs : list Q) (m : Q) :
  fold_left Qplus (map (fun x => x - m + inject_Z 1) qs) 0
  == fold_left Qplus qs 0 + inject_Z (Z.of_nat (length qs)) * (1 - m).
Proof.
  induction qs as [|q qs IH]; simpl fold_left.
  - simpl. unfold inject_Z. lra.
  - rewrite (fold_add_acc _ (0 + _)), (fold_add_acc qs (0 + q)), IH.
    change (length (q :: qs)) with (S (length qs)).
    rewrite Nat2Z.inj_succ, <- Z.add_1_r, inject_Z_plus.
    unfold inject_Z at 1 4. ring.
Qed.

(** X12.  The forecast is made on the shifted scale and is not shifted
    back: when the shift is applied and the fit raises, every step of the
    fallback predicts the trailing mean of the cleaned closes plus
    (1 - min), where min is the smallest cleaned close. *)
Theorem X12_fallback_on_shifted_scale :
  forall (SARIMAX : series exact -> option (nat -> exact * (exact * exact)))
         (col : series exact) (horizon : nat),
    dropna col <> [] ->
    any_nonpositive (values (dropna col)) = true ->
    SARIMAX (sanitize col) = None ->
    exists v v0 m : Q,
      series_min (values (dropna col)) = Fin m
      /\ mean (lastn 10 (values (dropna col))) = Fin v0
      /\ forecast_values (snd (fit_sarima_model SARIMAX (sanitize col) horizon))
         = repeat (Fin v) horizon
      /\ v == v0 + (1 - m).
Proof.
  intros SARIMAX col horizon Hne Hany Hraise.
  destruct (shifted_values col Hne Hany) as (qs & m & Hqs & Hm & _ & Hsan).
  assert (Hqne : lastn 10 qs <> []).
  { apply lastn_nonempty; [lia|]. intros ->.
    destruct (dropna col); [congruence|discriminate]. }
  pose proof (length_positive Hqne) as Hlen.
  eexists _, _, m. split; [exact Hm|]. split; [|split].
  - rewrite Hqs, lastn_map. apply (mean_exact Hqne).
  - unfold fit_sarima_model. rewrite Hraise, Hsan.
    cbn [snd forecast_values].
    rewrite <- (map_map (fun x => x - m + inject_Z 1) Fin), lastn_map.
    rewrite lastn_map, mean_exact, length_map;
      [reflexivity | destruct (lastn 10 qs); [congruence|discriminate]].
  - assert (H0 : forall l, fold_left Qplus l (inject_Z 0) == fold_left Qplus l 0)
      by reflexivity.
    rewrite !H0, sum_shifted. field. intros E. rewrite E in Hlen. lra.
Qed.

Lemma missing_column_last (data : series exact) :
  dropna data = [] -> data <> [] -> current_price_val data = NaN.
Proof.
  unfold current_price_val, values, dropna.
  induction data as [|[d x] data IH]; intros Hdrop Hne; [congruence|].
  simpl in Hdrop. destruct x as [q|]; [discriminate|]. simpl in Hdrop.
  destruct data as [|p data']; [reflexivity|].
  change (last (map snd ((d, NaN) :: p :: data')) (fromZ 0))
    with (last (map snd (p :: data')) (fromZ 0 : exact)).
  apply IH; [exact Hdrop|discriminate].
Qed.

(** X13.  On a table of at least 30 rows in which every close is missing,
    with a fit that raises on the empty series, the script still forecasts:
    every predicted close and bound is NaN, the percent change and the
    confidence width are NaN, the bucket is "Low", and completion is
    reported after the two warnings. *)
Theorem X13_forecast_of_empty_series :
  forall (D : Type) (seasonal_decompose : series exact -> nat -> option D)
         (SARIMAX : series exact -> option (nat -> exact * (exact * exact)))
         (data : series exact),
    dropna data = [] ->
    (30 <= length data)%nat ->
    SARIMAX [] = None ->
    let r := analyse seasonal_decompose SARIMAX data in
    future_df r =
      Some {| Date := future_dates data;
              Predicted_Close := repeat NaN 30;
              Lower_CI := repeat NaN 30;
              Upper_CI := repeat NaN 30 |}
    /\ summary r =
         Some (inr {| last_pred_price := NaN;
                      pred_change_val := NaN;
                      confidence_width := NaN;
                      confidence_level := Low |})
    /\ notices r =
         [NotEnoughForDecomposition 60 0; SarimaFallback; AnalysisCompleted].
Proof.
  intros D seasonal_decompose SARIMAX data Hdrop Hlen Hraise r. subst r.
  assert (Hsan : sanitize data = [])
    by (unfold sanitize; rewrite Hdrop; reflexivity).
  assert (Hlast : current_price_val data = NaN).
  { apply missing_column_last; [exact Hdrop|].
    destruct data; [simpl in Hlen; lia|discriminate]. }
  assert (Hraise' : SARIMAX (sanitize data) = None) by (rewrite Hsan; exact Hraise).
  destruct (fallback_frame seasonal_decompose SARIMAX data Hlen Hraise')
    as [Hfr Hsum].
  rewrite Hsan in Hfr, Hsum. rewrite Hlast in Hsum.
  split; [exact Hfr|]. split; [exact Hsum|].
  rewrite notices_shape, Hsan, Hraise, Hlast.
  destruct (Nat.ltb_spec (length data) 30); [lia|]. reflexivity.
Qed.

(** X14.  A wider interval never gives a more confident bucket: the
    bucket moves from "High" through "Medium" to "Low" as the width grows,
    and a width that is NaN is bucketed "Low". *)
Theorem X14_bucket_monotone :
  forall (w1 w2 : Q),
    w1 <= w2 ->
    (confidence_rank (confidence_bucket (Fin w1))
     <= confidence_rank (confidence_bucket (Fin w2)))%nat
    /\ confidence_bucket NaN = Low.
Proof.
  intros w1 w2 Hle. split; [|reflexivity].
  unfold confidence_bucket. simpl.
  destruct (Qlt_bool w1 (inject_Z 10)) eqn:A1;
    destruct (Qlt_bool w2 (inject_Z 10)) eqn:A2;
    destruct (Qlt_bool w1 (inject_Z 20)) eqn:B1;
    destruct (Qlt_bool w2 (inject_Z 20)) eqn:B2;
    simpl; try lia; exfalso;
    repeat match goal with
           | H : Qlt_bool _ _ = true |- _ => apply Qlt_bool_iff in H
           | H : Qlt_bool ?a ?b = false |- _ =>
               assert (~ a < b)
                 by (intros Hlt; apply Qlt_bool_iff in Hlt; congruence);
               clear H
           end;
    unfold inject_Z in *; lra.
Qed.

(** X15.  [fit_sarima_model] takes the fallback band as 0.95 and 1.05
    times the mean, so on a series whose trailing mean is negative the
    band is inverted: at every step upper < predicted < lower. *)
Theorem X15_negative_mean_inverts_band :
  forall (SARIMAX : series exact -> option (nat -> exact * (exact * exact)))
         (s : series exact) (horizon : nat) (v : Q),
    SARIMAX s = None ->
    mean (lastn 10 (values s)) = Fin v ->
    v < 0 ->
    let fc := snd (fit_sarima_model SARIMAX s horizon) in
    forall i, (i < horizon)%nat ->
      (nth i (map snd (confidence_intervals fc)) nan
       <? nth i (forecast_values fc) nan)%num = true
      /\ (nth i (forecast_values fc) nan
          <? nth i (map fst (confidence_intervals fc)) nan)%num = true.
Proof.
  intros SARIMAX s horizon v Hraise Hmean Hneg fc i Hi. subst fc.
  unfold fit_sarima_model. rewrite Hraise, Hmean.
  cbn [snd forecast_values confidence_intervals].
  rewrite !map_map. cbn [fst snd]. rewrite !map_repeat.
  rewrite !(nth_repeat_lt _ _ Hi). simpl.
  rewrite !Qlt_bool_iff. split; lra.
Qed.

(** X17.  With a positive first close and a last close present, the
    "Total Return" card shows the change last - first and the percent
    change (last - first) / first x 100, in green exactly when the last
    close is not below the first. *)
Theorem X17_total_return_colour :
  forall (d : date) (a b : Q) (rest : series exact),
    0 < a ->
    last (values ((d, Fin a) :: rest)) nan = Fin b ->
    exists pct : Q,
      total_return ((d, Fin a) :: rest) = inr (Fin (b - a), Fin pct)
      /\ pct == (b - a) / a * 100
      /\ (return_colour (Fin pct) = Green <-> a <= b).
Proof.
  intros d a b rest Ha Hlast.
  assert (Hq : Qeq_bool a (inject_Z 0) = false).
  { destruct (Qeq_bool a (inject_Z 0)) eqn:E; [|reflexivity].
    apply Qeq_bool_iff in E. unfold inject_Z in E. lra. }
  unfold total_return, py_div. rewrite Hlast. simpl. rewrite Hq. simpl.
  change (Qeq_bool a 0) with (Qeq_bool a (inject_Z 0)). rewrite Hq.
  eexists. split; [reflexivity|]. split; [unfold inject_Z; lra|].
  unfold return_colour. simpl.
  assert (Hdiv : (b - a) / a * inject_Z 100 == (b - a) * (100 / a))
    by (unfold inject_Z; field; lra).
  assert (Hpos : 0 < 100 / a) by (apply Qlt_shift_div_l; lra).
  destruct (Qle_bool _ _) eqn:E.
  - apply Qle_bool_iff in E. rewrite Hdiv in E. unfold inject_Z in E.
    split; [intros _|reflexivity]. nra.
  - split; [discriminate|]. intros Hab. exfalso.
    assert (Hge : Qle_bool (inject_Z 0) ((b - a) / a * inject_Z 100) = true).
    { apply Qle_bool_iff. rewrite Hdiv. unfold inject_Z. nra. }
    congruence.
Qed.

End ExactMore.

(** *** The "Total Return" card *)

Section CardFacts.

Context {F : Type} {num : Num F}.
Local Open Scope num_scope.

(** X16.  The "Total Return" card never raises, whatever the table holds:
    its quotient sits behind the test [first_price != 0], and with a zero
    first close the percent change shown is 0. *)
Theorem X16_total_return_never_raises :
  forall (data : series F),
    (exists change pct, total_return data = inr (change, pct))
    /\ (forall d first rest,
          data = (d, first) :: rest ->
          (first =? fromZ 0) = true ->
          exists change, total_return data = inr (change, fromZ 0)).
Proof.
  intros data. split.
  - destruct data as [|[d first] rest]; simpl; [eauto|].
    unfold py_div. destruct (first =? fromZ 0) eqn:E; simpl; eauto.
  - intros d first rest -> Hzero. simpl. rewrite Hzero. simpl. eauto.
Qed.

End CardFacts.

(** *** The decomposition's input *)

(** X18.  The shift and the length gate establish what the multiplicative
    decomposition needs: [seasonal_decompose] is only ever called on a
    series of at least 60 strictly positive values.  So if it raises on no
    such series, the failure message is never shown, and from 60 sanitized
    points on the decomposition is done. *)
Theorem X18_decomposition_precondition :
  forall (D : Type) (seasonal_decompose : series exact -> nat -> option D)
         (SARIMAX : series exact -> option (nat -> exact * (exact * exact)))
         (data : series exact),
    (forall s, all_positive (values s) -> 60 <= length s ->
               seasonal_decompose s 30 <> None) ->
    let r := analyse seasonal_decompose SARIMAX data in
    ~ In DecompositionFailed (notices r)
    /\ (60 <= length (sanitize data) ->
        exists result, decomposition r = Decomposed result).
Proof.
  intros D seasonal_decompose SARIMAX data Hlib r. subst r.
  pose proof (sanitize_positive data) as Hpos.
  rewrite notices_shape, analyse_decomposition. unfold decomposition_section.
  destruct (Nat.ltb_spec (length (sanitize data)) 60) as [Hlt|Hge].
  - split; [|lia].
    destruct (length data <? 30);
      [|destruct (SARIMAX _);
        destruct (feqb (current_price_val data) (fromZ 0))];
      simpl; intuition discriminate.
  - specialize (Hlib (sanitize data) Hpos Hge).
    destruct (seasonal_decompose (sanitize data) 30) as [result|];
      [|congruence].
    split; [|intros _; exists result; reflexivity].
    destruct (length data <? 30);
      [|destruct (SARIMAX _);
        destruct (feqb (current_price_val data) (fromZ 0))];
      simpl; intuition discriminate.
Qed.

(** *** Witnesses of the further properties *)

Lemma X5_witness :
  (exists fr,
      future_df (analyse decompose_raises always_raises zero_table) = Some fr)
  /\ summary (analyse decompose_raises always_raises zero_table)
     = Some (inl ZeroDivisionError)
  /\ ~ In AnalysisCompleted
        (notices (analyse decompose_raises always_raises zero_table)).
Proof.
  apply (X5_zero_close_raises decompose_raises always_raises zero_table).
  - vm_compute. lia.
  - vm_compute. reflexivity.
Defined.

Lemma X6_witness :
  (exists fr,
      future_df (analyse decompose_raises fits_flat flat30_exact) = Some fr
      /\ forall i, i < 30 ->
           nth i (Predicted_Close fr) nan = fst (flat_model i)
           /\ nth i (Lower_CI fr) nan = fst (snd (flat_model i))
           /\ nth i (Upper_CI fr) nan = snd (snd (flat_model i)))
  /\ ~ In SarimaFallback
        (notices (analyse decompose_raises fits_flat flat30_exact)).
Proof.
  apply (X6_fitted_frame decompose_raises fits_flat flat30_exact).
  - vm_compute. lia.
  - reflexivity.
Defined.

Lemma week_table_sorted : StronglySorted Z.lt (map fst week_table).
Proof. simpl. unfold day0. repeat constructor; lia. Defined.

Lemma X7_witness :
  StronglySorted Z.lt (map fst (sanitize week_table))
  /\ (forall d, In d (map fst (sanitize week_table))
                <-> exists x, In (d, x) week_table /\ isnan x = false)
  /\ length (sanitize week_table) =
     length (filter (fun p => negb (isnan (snd p))) week_table).
Proof. exact (X7_sanitize_keeps_dates week_table week_table_sorted). Defined.

Lemma X8_witness :
  (forall d f, In d (map fst week_table) -> In f (future_dates week_table) ->
               (d < f)%Z)
  /\ StronglySorted Z.lt (future_dates week_table).
Proof. exact (X8_forecast_after_history week_table week_table_sorted). Defined.

Lemma X10_witness :
  Exists (fun x => exact_eq x (fromZ 1)) (values (sanitize dipped_prices))
  /\ Forall (fun x => (fromZ 1 <=? x)%num = true)
       (values (sanitize dipped_prices))
  /\ forall i j,
       i < length (values (dropna dipped_prices)) ->
       j < length (values (dropna dipped_prices)) ->
       exact_eq
         (nth i (values (sanitize dipped_prices)) nan
          - nth j (values (sanitize dipped_prices)) nan)%num
         (nth i (values (dropna dipped_prices)) nan
          - nth j (values (dropna dipped_prices)) nan)%num.
Proof.
  apply (X10_shift_anchors_minimum dipped_prices).
  - vm_compute. discriminate.
  - vm_compute. reflexivity.
Defined.

Lemma X11_witness :
  exists v : Q,
    forecast_values (snd (fit_sarima_model always_raises flat30_exact 30))
    = repeat (Fin v) 30
    /\ (100 <= v <= 100)%Q
    /\ ((100 == 100)%Q -> (v == 100)%Q).
Proof.
  apply (X11_fallback_within_range always_raises flat30_exact 30
           (qs := repeat 100%Q 10)).
  - reflexivity.
  - vm_compute. reflexivity.
  - discriminate.
  - simpl. repeat constructor; apply Qle_refl.
Defined.

Lemma X12_witness :
  exists v v0 m : Q,
    series_min (values (dropna dipped_prices)) = Fin m
    /\ mean (lastn 10 (values (dropna dipped_prices))) = Fin v0
    /\ forecast_values
         (snd (fit_sarima_model always_raises (sanitize dipped_prices) 30))
       = repeat (Fin v) 30
    /\ (v == v0 + (1 - m))%Q.
Proof.
  apply (X12_fallback_on_shifted_scale always_raises dipped_prices 30).
  - vm_compute. discriminate.
  - vm_compute. reflexivity.
  - reflexivity.
Defined.

Lemma X13_witness :
  let r := analyse decompose_raises always_raises all_missing_exact in
  future_df r =
    Some {| Date := future_dates all_missing_exact;
            Predicted_Close := repeat NaN 30;
            Lower_CI := repeat NaN 30;
            Upper_CI := repeat NaN 30 |}
  /\ summary r =
       Some (inr {| last_pred_price := NaN;
                    pred_change_val := NaN;
                    confidence_width := NaN;
                    confidence_level := Low |})
  /\ notices r =
       [NotEnoughForDecomposition 60 0; SarimaFallback; AnalysisCompleted].
Proof.
  apply (X13_forecast_of_empty_series decompose_raises always_raises
           all_missing_exact).
  - vm_compute. reflexivity.
  - vm_compute. lia.
  - reflexivity.
Defined.

Lemma X14_witness :
  confidence_rank (confidence_bucket (Fin 5%Q))
  <= confidence_rank (confidence_bucket (Fin 15%Q))
  /\ confidence_bucket NaN = Low.
Proof.
  apply (X14_bucket_monotone (w1 := 5%Q) (w2 := 15%Q)).
  vm_compute. discriminate.
Defined.

Lemma X15_witness :
  let fc := snd (fit_sarima_model always_raises below_zero 30) in
  (nth 29 (map snd (confidence_intervals fc)) nan
   <? nth 29 (forecast_values fc) nan)%num = true
  /\ (nth 29 (forecast_values fc) nan
      <? nth 29 (map fst (confidence_intervals fc)) nan)%num = true.
Proof.
  apply (@X15_negative_mean_inverts_band always_raises below_zero 30
           (-1000 # 10)%Q).
  - reflexivity.
  - vm_compute. reflexivity.
  - reflexivity.
  - lia.
Defined.

Lemma X16_witness :
  exists change, total_return zero_table = inr (change, fromZ 0).
Proof.
  destruct (X16_total_return_never_raises zero_table) as [_ H].
  apply (H day0 (fromZ 0) (constant_rows (day0 + 1)%Z 29 (fromZ 0))).
  - vm_compute. reflexivity.
  - vm_compute. reflexivity.
Defined.

Lemma X17_witness :
  exists pct : Q,
    total_return week_table = inr (Fin (104 - 100), Fin pct)
    /\ (pct == (104 - 100) / 100 * 100)%Q
    /\ (return_colour (Fin pct) = Green <-> (100 <= 104)%Q).
Proof.
  apply (@X17_total_return_colour day0 100%Q 104%Q (tl week_table)).
  - reflexivity.
  - reflexivity.
Defined.

Lemma X18_witness :
  let r := analyse decompose_ok always_raises flat60_exact in
  ~ In DecompositionFailed (notices r)
  /\ (60 <= length (sanitize flat60_exact) ->
      exists result, decomposition r = Decomposed result).
Proof.
  apply (X18_decomposition_precondition decompose_ok always_raises
           flat60_exact).
  intros s _ _. discriminate.
Defined.
